(** * go-httpstat: the timing state of one HTTP request (go18.go)

    A shallow embedding of [Result.Done], [Result.ContentTransfer],
    [Result.Total] and of the nine hook handlers that [withClientTrace]
    installs, together with the properties of the timing breakdown they
    compute.

    The handlers mutate one [Result] behind its [sync.RWMutex]; they are
    embedded in a state monad over [Result] whose outcomes say whether the
    call returned, waits forever on the lock, or crashes the runtime. *)

From Stdlib Require Import ZArith Bool List Lia.
From coqutil Require Import Datatypes.RecordSetters.
Import ListNotations.
Import OCamlLikeNotations.
Local Open Scope Z_scope.

(* ================================================================== *)
(** ** The [time] package *)

(** A [time.Time] is an instant on the wall clock, counted in nanoseconds
    from the zero instant (January 1, year 1, 00:00:00 UTC); the zero value
    of the type is that instant.  A [time.Duration] is an [int64] count of
    nanoseconds.  (A [Time] read from [time.Now()] also carries a monotonic
    reading, and [Sub] of two such values subtracts those; the model has the
    one clock, which is what both readings are while the wall clock is not
    reset.  So a difference between two instants the hooks read is the
    code's; a difference against an instant the caller passes is the code's
    when that instant is on the same clock as the hooks' readings.) *)
Definition Time := Z.
Definition Duration := Z.

Definition minDuration : Duration := - 2 ^ 63.
Definition maxDuration : Duration := 2 ^ 63 - 1.

Definition Nanosecond : Duration := 1.
Definition Microsecond : Duration := 1000 * Nanosecond.
Definition Millisecond : Duration := 1000 * Microsecond.

(** [t.IsZero()] *)
Definition IsZero (t : Time) : bool := t =? 0.

(** [t.Add(d)] *)
Definition Add (t : Time) (d : Duration) : Time := t + d.

(** [t.Sub(u)]: the duration [t - u]; when it does not fit a [Duration]
    the largest (or smallest) duration is returned instead. *)
Definition Sub (t u : Time) : Duration :=
  if t - u <? minDuration then minDuration
  else if maxDuration <? t - u then maxDuration
  else t - u.

(* ================================================================== *)
(** ** [sync.RWMutex] *)

(** What a caller of the lock sees: whether a writer holds it and how many
    readers do. *)
Record RWMutex := mkRWMutex { writer : bool; readers : nat }.

Definition zeroRWMutex : RWMutex := mkRWMutex false 0.

(** How a call ends: it returns (with a value and the state it leaves), it
    waits on the lock with nobody left to release it, or the runtime stops
    the program (unlocking a lock that is not held). *)
Inductive outcome (A : Type) : Type :=
| Ok (a : A)
| Blocked
| Fatal.
Arguments Ok {A} a.
Arguments Blocked {A}.
Arguments Fatal {A}.

(* ================================================================== *)
(** ** The [Result] struct *)

(** Modelled from the spec: the declaration of the [Result] struct is not in
    go18.go.  Its fields are the ones go18.go reads and writes, with the
    types the data model gives them: the lock [m], ten raw timestamps, the
    two flags and ten derived durations. *)
Record Result := mkResult {
  m : RWMutex;

  DNSLookup : Duration;
  TCPConnection : Duration;
  TLSHandshake : Duration;
  ServerProcessing : Duration;
  contentTransfer : Duration;

  NameLookup : Duration;
  Connect : Duration;
  Pretransfer : Duration;
  StartTransfer : Duration;
  total : Duration;

  dnsStart : Time;
  dnsDone : Time;
  tcpStart : Time;
  tcpDone : Time;
  tlsStart : Time;
  tlsDone : Time;
  serverStart : Time;
  serverDone : Time;
  transferStart : Time;
  transferDone : Time;

  isTLS : bool;
  isReused : bool
}.

(** The zero value of the struct, which is what [new(Result)] gives. *)
Definition zeroResult : Result :=
  {| m := zeroRWMutex;
     DNSLookup := 0; TCPConnection := 0; TLSHandshake := 0;
     ServerProcessing := 0; contentTransfer := 0;
     NameLookup := 0; Connect := 0; Pretransfer := 0; StartTransfer := 0;
     total := 0;
     dnsStart := 0; dnsDone := 0; tcpStart := 0; tcpDone := 0;
     tlsStart := 0; tlsDone := 0; serverStart := 0; serverDone := 0;
     transferStart := 0; transferDone := 0;
     isTLS := false; isReused := false |}.

(* ================================================================== *)
(** ** The monad of method bodies *)

Definition M (A : Type) : Type := Result -> outcome (A * Result).

Definition ret {A} (a : A) : M A := fun r => Ok (a, r).

Definition bind {A B} (c : M A) (k : A -> M B) : M B :=
  fun r =>
    match c r with
    | Ok (a, r') => k a r'
    | Blocked => Blocked
    | Fatal => Fatal
    end.

Notation "x <- c1 ;; c2" := (bind c1 (fun x => c2))
  (at level 61, c1 at next level, right associativity).
Notation "c1 ;; c2" := (bind c1 (fun _ => c2))
  (at level 61, right associativity).

(** The receiver [r] as it is now. *)
Definition this : M Result := fun r => Ok (r, r).

(** The value of an expression over the fields of [r]. *)
Definition read {A} (f : Result -> A) : M A := fun r => Ok (f r, r).

(** One assignment to fields of [r]. *)
Definition assign (f : Result -> Result) : M unit := fun r => Ok (tt, f r).

(** [if c { body }] *)
Definition when (c : bool) (body : M unit) : M unit :=
  if c then body else ret tt.

(** [r.m.Lock()]: taken when nobody holds the lock. *)
Definition Lock : M unit := fun r =>
  if writer (m r) || negb (Nat.eqb (readers (m r)) 0) then Blocked
  else Ok (tt, { r with m := mkRWMutex true 0 }).

(** [r.m.Unlock()]: fatal when the lock is not held for writing. *)
Definition Unlock : M unit := fun r =>
  if writer (m r) then Ok (tt, { r with m := mkRWMutex false (readers (m r)) })
  else Fatal.

(** [r.m.RLock()]: taken when no writer holds the lock. *)
Definition RLock : M unit := fun r =>
  if writer (m r) then Blocked
  else Ok (tt, { r with m := mkRWMutex false (S (readers (m r))) }).

(** [r.m.RUnlock()]: fatal when no reader holds the lock. *)
Definition RUnlock : M unit := fun r =>
  match readers (m r) with
  | O => Fatal
  | S n => Ok (tt, { r with m := mkRWMutex (writer (m r)) n })
  end.

(* ================================================================== *)
(** ** go18.go *)

(** [func (r *Result) Done(t time.Time)] *)
Definition Done (t : Time) : M unit :=
  Lock ;;
  assign (fun r => { r with transferDone := t }) ;;
  r <- this ;;
  if IsZero (dnsStart r) then
    ret tt (* return *)
  else
    assign (fun r =>
      { r with contentTransfer := Sub (transferDone r) (transferStart r) }) ;;
    assign (fun r => { r with total := Sub (transferDone r) (dnsStart r) }) ;;
    Unlock.

(** [func (r *Result) ContentTransfer(t time.Time) (d time.Duration)] *)
Definition ContentTransfer (t : Time) : M Duration :=
  RLock ;;
  r <- this ;;
  let d := Sub t (serverDone r) in
  RUnlock ;;
  ret d.

(** [func (r *Result) Total(t time.Time) (d time.Duration)] *)
Definition Total (t : Time) : M Duration :=
  RLock ;;
  r <- this ;;
  let d := Sub t (dnsStart r) in
  RUnlock ;;
  ret d.

(** [httptrace.GotConnInfo] *)
Record GotConnInfo := mkGotConnInfo {
  Reused : bool;
  WasIdle : bool;
  IdleTime : Duration
}.

(** [func withClientTrace(ctx context.Context, r *Result) context.Context]
    binds to the context an [httptrace.ClientTrace] made of the closures
    below, each over the same [r].  A hook's argument [now] is what its call
    of [time.Now()] returns; the info arguments that a hook does not read
    are left out. *)
Module withClientTrace.

Definition DNSStart (now : Time) : M unit :=
  Lock ;;
  assign (fun r => { r with dnsStart := now }) ;;
  Unlock.

Definition DNSDone (now : Time) : M unit :=
  Lock ;;
  assign (fun r => { r with dnsDone := now }) ;;
  assign (fun r => { r with DNSLookup := Sub (dnsDone r) (dnsStart r) }) ;;
  assign (fun r => { r with NameLookup := Sub (dnsDone r) (dnsStart r) }) ;;
  Unlock.

Definition ConnectStart (now : Time) : M unit :=
  Lock ;;
  assign (fun r => { r with tcpStart := now }) ;;
  r <- this ;;
  when (IsZero (dnsStart r))
    (assign (fun r => { r with dnsStart := tcpStart r }) ;;
     assign (fun r => { r with dnsDone := tcpStart r })) ;;
  Unlock.

Definition ConnectDone (now : Time) : M unit :=
  Lock ;;
  assign (fun r => { r with tcpDone := now }) ;;
  assign (fun r => { r with TCPConnection := Sub (tcpDone r) (tcpStart r) }) ;;
  assign (fun r => { r with Connect := Sub (tcpDone r) (dnsStart r) }) ;;
  Unlock.

Definition TLSHandshakeStart (now : Time) : M unit :=
  Lock ;;
  assign (fun r => { r with isTLS := true }) ;;
  assign (fun r => { r with tlsStart := now }) ;;
  Unlock.

Definition TLSHandshakeDone (now : Time) : M unit :=
  Lock ;;
  assign (fun r => { r with tlsDone := now }) ;;
  assign (fun r => { r with TLSHandshake := Sub (tlsDone r) (tlsStart r) }) ;;
  assign (fun r => { r with Pretransfer := Sub (tlsDone r) (dnsStart r) }) ;;
  Unlock.

Definition GotConn (i : GotConnInfo) : M unit :=
  when (Reused i)
    (Lock ;;
     assign (fun r => { r with isReused := true }) ;;
     Unlock).

Definition WroteRequest (now : Time) : M unit :=
  Lock ;;
  assign (fun r => { r with serverStart := now }) ;;
  r <- this ;;
  when (IsZero (dnsStart r) && IsZero (tcpStart r))
    (now <- read serverStart ;;
     assign (fun r => { r with dnsStart := now }) ;;
     assign (fun r => { r with dnsDone := now }) ;;
     assign (fun r => { r with tcpStart := now }) ;;
     assign (fun r => { r with tcpDone := now })) ;;
  r <- this ;;
  when (isReused r)
    (now <- read serverStart ;;
     assign (fun r => { r with dnsStart := now }) ;;
     assign (fun r => { r with dnsDone := now }) ;;
     assign (fun r => { r with tcpStart := now }) ;;
     assign (fun r => { r with tcpDone := now }) ;;
     assign (fun r => { r with tlsStart := now }) ;;
     assign (fun r => { r with tlsDone := now })) ;;
  r <- this ;;
  when (negb (isTLS r))
    (assign (fun r => { r with TLSHandshake := Sub (tcpDone r) (tcpDone r) }) ;;
     assign (fun r => { r with Pretransfer := Connect r })) ;;
  Unlock.

Definition GotFirstResponseByte (now : Time) : M unit :=
  Lock ;;
  assign (fun r => { r with serverDone := now }) ;;
  assign (fun r =>
    { r with ServerProcessing := Sub (serverDone r) (serverStart r) }) ;;
  assign (fun r => { r with StartTransfer := Sub (serverDone r) (dnsStart r) }) ;;
  assign (fun r => { r with transferStart := serverDone r }) ;;
  Unlock.

End withClientTrace.

(* ================================================================== *)
(** ** Runs of one request *)

(** The transport's calls of the hooks, each with the clock reading the
    hook takes. *)
Inductive Hook : Type :=
| DNSStart (now : Time)
| DNSDone (now : Time)
| ConnectStart (now : Time)
| ConnectDone (now : Time)
| TLSHandshakeStart (now : Time)
| TLSHandshakeDone (now : Time)
| GotConn (i : GotConnInfo)
| WroteRequest (now : Time)
| GotFirstResponseByte (now : Time).

Definition fire (h : Hook) : M unit :=
  match h with
  | DNSStart now => withClientTrace.DNSStart now
  | DNSDone now => withClientTrace.DNSDone now
  | ConnectStart now => withClientTrace.ConnectStart now
  | ConnectDone now => withClientTrace.ConnectDone now
  | TLSHandshakeStart now => withClientTrace.TLSHandshakeStart now
  | TLSHandshakeDone now => withClientTrace.TLSHandshakeDone now
  | GotConn i => withClientTrace.GotConn i
  | WroteRequest now => withClientTrace.WroteRequest now
  | GotFirstResponseByte now => withClientTrace.GotFirstResponseByte now
  end.

Fixpoint fireAll (hs : list Hook) : M unit :=
  match hs with
  | [] => ret tt
  | h :: hs' => fire h ;; fireAll hs'
  end.

(** The clock reading a hook takes, if it takes one. *)
Definition reading (h : Hook) : list Time :=
  match h with
  | DNSStart now | DNSDone now | ConnectStart now | ConnectDone now
  | TLSHandshakeStart now | TLSHandshakeDone now
  | WroteRequest now | GotFirstResponseByte now => [now]
  | GotConn _ => []
  end.

Definition readings (hs : list Hook) : list Time := flat_map reading hs.

(** What happens to a [Result]: the transport fires a hook, or the caller
    calls [Done]. *)
Inductive Event : Type :=
| Fire (h : Hook)
| CallDone (t : Time).

Definition step (e : Event) : M unit :=
  match e with
  | Fire h => fire h
  | CallDone t => Done t
  end.

Fixpoint run (es : list Event) : M unit :=
  match es with
  | [] => ret tt
  | e :: es' => step e ;; run es'
  end.


(* ================================================================== *)
(** ** Predicates on states and runs *)

(** Nobody holds the lock of [r]. *)
Definition unlocked (r : Result) : Prop := m r = zeroRWMutex.

(** The request-written hook fills in the connection instants of [r]: no
    hook has run before it, or the connection is reused. *)
Definition fillsConn (r : Result) : bool :=
  (IsZero (dnsStart r) && IsZero (tcpStart r)) || isReused r.

(** Every derived duration of [r] is at least zero. *)
Definition nonNegative (r : Result) : Prop :=
  0 <= DNSLookup r /\ 0 <= NameLookup r /\ 0 <= TCPConnection r /\
  0 <= TLSHandshake r /\ 0 <= ServerProcessing r /\
  0 <= contentTransfer r /\ 0 <= Connect r /\ 0 <= Pretransfer r /\
  0 <= StartTransfer r /\ 0 <= total r.

(** No timestamp of [r] is later than [now]. *)
Definition notAfter (now : Time) (r : Result) : Prop :=
  dnsStart r <= now /\ dnsDone r <= now /\ tcpStart r <= now /\
  tcpDone r <= now /\ tlsStart r <= now /\ tlsDone r <= now /\
  serverStart r <= now /\ serverDone r <= now /\
  transferStart r <= now /\ transferDone r <= now.

(** The instants [ts] come in order, none before [lo]. *)
Fixpoint nondecreasing (lo : Time) (ts : list Time) : Prop :=
  match ts with
  | [] => True
  | t :: ts' => lo <= t /\ nondecreasing t ts'
  end.


(** [h] is the TLS-handshake-start hook, the only one that sets [isTLS]. *)
Definition startsTLS (h : Hook) : bool :=
  match h with
  | TLSHandshakeStart _ => true
  | _ => false
  end.


(** [n] milliseconds. *)
Definition ms (n : Z) : Duration := n * Millisecond.

(** A [Result] in the middle of a request: DNS started at instant 10, the
    first response byte came at instant 50. *)
Definition inFlight : Result :=
  { zeroResult with dnsStart := 10; serverDone := 50 }.

(** A [Result] on which DNS and connect hooks have recorded instants and
    the transport then reported a reused connection. *)
Definition dialedThenReused : Result :=
  { zeroResult with dnsStart := 5; dnsDone := 8; tcpStart := 8;
                    tcpDone := 20; Connect := 15; isReused := true }.

(** The lock of [r] is free, or a writer holds it and [dnsStart] is unset
    (what the early return of [Done] leaves). *)
Definition freeOrLeaked (r : Result) : Prop :=
  unlocked r \/ (m r = mkRWMutex true 0 /\ IsZero (dnsStart r) = true).

(** The fields that are only ever written together hold the same value. *)
Definition twinned (r : Result) : Prop :=
  NameLookup r = DNSLookup r /\ transferStart r = serverDone r.

(** [h] takes the lock: every hook but a connection-obtained one that
    reports no reuse. *)
Definition takesLock (h : Hook) : bool :=
  match h with
  | GotConn i => Reused i
  | _ => true
  end.

(** [h] is one of the hooks that set [dnsStart] when it is unset:
    DNS-start, connect-start and request-written. *)
Definition setsOrigin (h : Hook) : bool :=
  match h with
  | DNSStart _ | ConnectStart _ | WroteRequest _ => true
  | _ => false
  end.

(** [h] is the first-response-byte hook, the only one that sets
    [transferStart]. *)
Definition isFirstByte (h : Hook) : bool :=
  match h with
  | GotFirstResponseByte _ => true
  | _ => false
  end.

(** When [dnsStart] is unset in [r], so is [tcpStart]. *)
Definition originFirst (r : Result) : Prop :=
  IsZero (dnsStart r) = true -> IsZero (tcpStart r) = true.

(* ================================================================== *)
(** ** Tactics *)

(** Symbolic execution of a method body on a [Result] given by its fields. *)
Ltac exec :=
  cbv beta iota zeta delta
    [bind ret this read assign when Lock Unlock RLock RUnlock
     Done ContentTransfer Total
     withClientTrace.DNSStart withClientTrace.DNSDone
     withClientTrace.ConnectStart withClientTrace.ConnectDone
     withClientTrace.TLSHandshakeStart withClientTrace.TLSHandshakeDone
     withClientTrace.GotConn withClientTrace.WroteRequest
     withClientTrace.GotFirstResponseByte
     fire fireAll step run
     apply_update constant unlocked fillsConn
     m writer readers zeroRWMutex zeroResult Reused
     DNSLookup TCPConnection TLSHandshake ServerProcessing contentTransfer
     NameLookup Connect Pretransfer StartTransfer total
     dnsStart dnsDone tcpStart tcpDone tlsStart tlsDone
     serverStart serverDone transferStart transferDone isTLS isReused
     orb andb negb Nat.eqb] in *.

(** Give [r] by its fields, with the lock free. *)
Ltac open_unlocked r H :=
  destruct r; unfold unlocked in H; cbn [m] in H; subst.

(** The fields of an updated [Result]. *)
Ltac fields := cbn in *; unfold constant in *.

(** After a rewrite with a hook's equation: name the state it leaves and
    show what is asked of it field by field. *)
Ltac leaves r H :=
  eexists; split; [reflexivity|]; open_unlocked r H.

(* ================================================================== *)
(** ** The [time] package *)

Lemma Sub_exact (t u : Time) :
  minDuration <= t - u <= maxDuration -> Sub t u = t - u.
Proof.
  intros [Hlo Hhi]. unfold Sub.
  destruct (Z.ltb_spec (t - u) minDuration); [lia|].
  destruct (Z.ltb_spec maxDuration (t - u)); [lia|reflexivity].
Qed.

Lemma Sub_diag (t : Time) : Sub t t = 0.
Proof. rewrite Sub_exact; unfold minDuration, maxDuration; lia. Qed.

Lemma Sub_nonneg (t u : Time) : u <= t -> 0 <= Sub t u.
Proof.
  intros H. unfold Sub, minDuration, maxDuration.
  destruct (Z.ltb_spec (t - u) (- 2 ^ 63)); [lia|].
  destruct (Z.ltb_spec (2 ^ 63 - 1) (t - u)); lia.
Qed.

Lemma Sub_pos (t u : Time) : u < t -> 0 < Sub t u.
Proof.
  intros H. unfold Sub, minDuration, maxDuration.
  destruct (Z.ltb_spec (t - u) (- 2 ^ 63)); [lia|].
  destruct (Z.ltb_spec (2 ^ 63 - 1) (t - u)); lia.
Qed.

Lemma IsZero_false (t : Time) : t <> 0 -> IsZero t = false.
Proof. intros H. unfold IsZero. now apply Z.eqb_neq. Qed.


(* ================================================================== *)
(** ** [Done] *)

(** What [Done] leaves when it is called with the lock free. *)
Lemma Done_unlocked (r : Result) (t : Time) :
  unlocked r ->
  Done t r =
  Ok (tt,
      if IsZero (dnsStart r) then
        { r with m := mkRWMutex true 0; transferDone := t }
      else
        { r with transferDone := t;
                 contentTransfer := Sub t (transferStart r);
                 total := Sub t (dnsStart r) }).
Proof.
  intros Hm. open_unlocked r Hm. exec.
  destruct (IsZero dnsStart0); reflexivity.
Qed.

(** C3: called with the lock free and [dnsStart] unset, [Done] returns on
    the early [return] with the lock still held for writing; [Unlock] is
    reached only on the other path, which leaves the lock free.  Every
    later [Lock] or [RLock] on the [Result] left by the early return waits
    forever. *)
Theorem Done_empty_keeps_lock (r : Result) (t : Time) :
  unlocked r ->
  IsZero (dnsStart r) = true ->
  exists r',
    Done t r = Ok (tt, r') /\
    m r' = mkRWMutex true 0 /\
    (forall t', Done t' r' = Blocked) /\
    (forall t', Total t' r' = Blocked) /\
    (forall t', ContentTransfer t' r' = Blocked) /\
    (forall r2 : Result,
        unlocked r2 -> IsZero (dnsStart r2) = false ->
        exists r2', Done t r2 = Ok (tt, r2') /\ unlocked r2').
Proof.
  intros Hm Hz. rewrite (Done_unlocked r t Hm), Hz.
  eexists; split; [reflexivity|].
  refine (conj _ (conj _ (conj _ (conj _ _))));
    try (intros t'; destruct r; exec; reflexivity).
  - destruct r; reflexivity.
  - intros r2 Hm2 Hz2. rewrite (Done_unlocked r2 t Hm2), Hz2.
    leaves r2 Hm2. reflexivity.
Qed.

Lemma Done_empty_keeps_lock_witness :
  unlocked zeroResult /\ IsZero (dnsStart zeroResult) = true /\
  exists r', Done 70 zeroResult = Ok (tt, r') /\ m r' = mkRWMutex true 0.
Proof.
  split; [reflexivity|]. split; [reflexivity|].
  destruct (Done_empty_keeps_lock zeroResult 70 eq_refl eq_refl)
    as [r' [H1 [H2 _]]].
  exists r'. split; assumption.
Defined.

(** C4: called with the lock free, [Done t] sets [transferDone] to [t].
    When [dnsStart] is unset that is the only timestamp, flag or duration
    it assigns: [contentTransfer] and [total] keep their value, so they
    remain zero (the lock [m] is the one other thing that differs, being
    left held).  Otherwise it also sets [contentTransfer] to
    [transferDone.Sub(transferStart)] and [total] to
    [transferDone.Sub(dnsStart)], and nothing else. *)
Theorem Done_frame (r : Result) (t : Time) :
  unlocked r ->
  exists r',
    Done t r = Ok (tt, r') /\
    (IsZero (dnsStart r) = true ->
       r' = { r with m := mkRWMutex true 0; transferDone := t } /\
       transferDone r' = t /\
       contentTransfer r' = contentTransfer r /\ total r' = total r /\
       (contentTransfer r = 0 -> total r = 0 ->
          contentTransfer r' = 0 /\ total r' = 0)) /\
    (IsZero (dnsStart r) = false ->
       r' = { r with transferDone := t;
                     contentTransfer := Sub t (transferStart r);
                     total := Sub t (dnsStart r) } /\
       transferDone r' = t /\
       contentTransfer r' = Sub (transferDone r') (transferStart r') /\
       total r' = Sub (transferDone r') (dnsStart r')).
Proof.
  intros Hm. rewrite (Done_unlocked r t Hm).
  eexists; split; [reflexivity|].
  split; intros Hz; rewrite Hz; destruct r; cbn; auto 6.
Qed.

Lemma Done_frame_witness :
  unlocked zeroResult /\
  exists r', Done 70 zeroResult = Ok (tt, r') /\
             r' = { zeroResult with m := mkRWMutex true 0;
                                    transferDone := 70 } /\
             contentTransfer r' = 0 /\ total r' = 0.
Proof.
  split; [reflexivity|].
  destruct (Done_frame zeroResult 70 eq_refl) as [r' [H1 [H2 _]]].
  destruct (H2 eq_refl) as [H3 [_ [_ [_ H4]]]].
  exists r'. split; [exact H1|]. split; [exact H3|].
  exact (H4 eq_refl eq_refl).
Defined.

(* ================================================================== *)
(** ** The accessors *)

Lemma ContentTransfer_read (r : Result) (t : Time) :
  writer (m r) = false -> ContentTransfer t r = Ok (Sub t (serverDone r), r).
Proof.
  intros Hw.
  destruct r as [[w n] ? ? ? ? ? ? ? ? ? ? ? ? ? ? ? ? ? ? ? ? ? ?].
  cbn [m writer] in Hw. subst w. reflexivity.
Qed.

Lemma Total_read (r : Result) (t : Time) :
  writer (m r) = false -> Total t r = Ok (Sub t (dnsStart r), r).
Proof.
  intros Hw.
  destruct r as [[w n] ? ? ? ? ? ? ? ? ? ? ? ? ? ? ? ? ? ? ? ? ? ?].
  cbn [m writer] in Hw. subst w. reflexivity.
Qed.

(** C8: on every [Result] whose lock no writer holds and for every [t],
    [ContentTransfer t] returns [t.Sub(serverDone)] and [Total t] returns
    [t.Sub(dnsStart)], which is the difference itself whenever it fits a
    [Duration]; both leave every field of the [Result] as it was, so two
    calls in a row with the same [t] return the same value. *)
Theorem accessors_pure (r : Result) (t : Time) :
  writer (m r) = false ->
  ContentTransfer t r = Ok (Sub t (serverDone r), r) /\
  Total t r = Ok (Sub t (dnsStart r), r) /\
  (minDuration <= t - serverDone r <= maxDuration ->
     ContentTransfer t r = Ok (t - serverDone r, r)) /\
  (minDuration <= t - dnsStart r <= maxDuration ->
     Total t r = Ok (t - dnsStart r, r)) /\
  (d1 <- ContentTransfer t ;; d2 <- ContentTransfer t ;; ret (d1, d2)) r =
    Ok ((Sub t (serverDone r), Sub t (serverDone r)), r) /\
  (d1 <- Total t ;; d2 <- Total t ;; ret (d1, d2)) r =
    Ok ((Sub t (dnsStart r), Sub t (dnsStart r)), r).
Proof.
  intros Hw.
  pose proof (ContentTransfer_read r t Hw) as HC.
  pose proof (Total_read r t Hw) as HT.
  refine (conj HC (conj HT (conj _ (conj _ (conj _ _))))).
  - intros Hr. now rewrite HC, Sub_exact.
  - intros Hr. now rewrite HT, Sub_exact.
  - unfold bind at 1. rewrite HC. unfold bind. now rewrite HC.
  - unfold bind at 1. rewrite HT. unfold bind. now rewrite HT.
Qed.

Lemma accessors_pure_witness :
  writer (m inFlight) = false /\
  ContentTransfer 70 inFlight = Ok (20, inFlight) /\
  Total 70 inFlight = Ok (60, inFlight).
Proof.
  split; [reflexivity|]. split.
  - exact (proj1 (accessors_pure inFlight 70 eq_refl)).
  - exact (proj1 (proj2 (accessors_pure inFlight 70 eq_refl))).
Defined.

(* ================================================================== *)
(** ** The hooks, one by one *)

Section Hooks.

Variable st : Result.
Variable now : Time.
Hypothesis Hm : unlocked st.

Ltac by_exec :=
  destruct st; unfold unlocked in Hm; cbn [m] in Hm; subst; exec.

Lemma DNSStart_unlocked :
  withClientTrace.DNSStart now st = Ok (tt, { st with dnsStart := now }).
Proof. by_exec. reflexivity. Qed.

Lemma DNSDone_unlocked :
  withClientTrace.DNSDone now st =
  Ok (tt, { st with dnsDone := now;
                    DNSLookup := Sub now (dnsStart st);
                    NameLookup := Sub now (dnsStart st) }).
Proof. by_exec. reflexivity. Qed.

Lemma ConnectStart_unlocked :
  withClientTrace.ConnectStart now st =
  Ok (tt, if IsZero (dnsStart st) then
            { st with tcpStart := now; dnsStart := now; dnsDone := now }
          else { st with tcpStart := now }).
Proof. by_exec. destruct (IsZero _); reflexivity. Qed.

Lemma ConnectDone_unlocked :
  withClientTrace.ConnectDone now st =
  Ok (tt, { st with tcpDone := now;
                    TCPConnection := Sub now (tcpStart st);
                    Connect := Sub now (dnsStart st) }).
Proof. by_exec. reflexivity. Qed.

Lemma TLSHandshakeStart_unlocked :
  withClientTrace.TLSHandshakeStart now st =
  Ok (tt, { st with isTLS := true; tlsStart := now }).
Proof. by_exec. reflexivity. Qed.

Lemma TLSHandshakeDone_unlocked :
  withClientTrace.TLSHandshakeDone now st =
  Ok (tt, { st with tlsDone := now;
                    TLSHandshake := Sub now (tlsStart st);
                    Pretransfer := Sub now (dnsStart st) }).
Proof. by_exec. reflexivity. Qed.

Lemma GotConn_unlocked (i : GotConnInfo) :
  withClientTrace.GotConn i st =
  Ok (tt, if Reused i then { st with isReused := true } else st).
Proof. by_exec. destruct i as [[] ? ?]; reflexivity. Qed.

Lemma WroteRequest_unlocked :
  withClientTrace.WroteRequest now st =
  Ok (tt, { st with serverStart := now;
                    dnsStart := if fillsConn st then now else dnsStart st;
                    dnsDone := if fillsConn st then now else dnsDone st;
                    tcpStart := if fillsConn st then now else tcpStart st;
                    tcpDone := if fillsConn st then now else tcpDone st;
                    tlsStart := if isReused st then now else tlsStart st;
                    tlsDone := if isReused st then now else tlsDone st;
                    TLSHandshake := if isTLS st then TLSHandshake st else 0;
                    Pretransfer := if isTLS st then Pretransfer st
                                   else Connect st }).
Proof.
  by_exec.
  destruct (IsZero dnsStart0), (IsZero tcpStart0), isReused0, isTLS0;
    cbn; rewrite ?Sub_diag; reflexivity.
Qed.

Lemma GotFirstResponseByte_unlocked :
  withClientTrace.GotFirstResponseByte now st =
  Ok (tt, { st with serverDone := now;
                    ServerProcessing := Sub now (serverStart st);
                    StartTransfer := Sub now (dnsStart st);
                    transferStart := now }).
Proof. by_exec. reflexivity. Qed.

End Hooks.

(** Rewrite the hook that [fire] runs with its equation. *)
Ltac fired Hm :=
  cbn [fire];
  first [ rewrite DNSStart_unlocked by exact Hm
        | rewrite DNSDone_unlocked by exact Hm
        | rewrite ConnectStart_unlocked by exact Hm
        | rewrite ConnectDone_unlocked by exact Hm
        | rewrite TLSHandshakeStart_unlocked by exact Hm
        | rewrite TLSHandshakeDone_unlocked by exact Hm
        | rewrite GotConn_unlocked by exact Hm
        | rewrite WroteRequest_unlocked by exact Hm
        | rewrite GotFirstResponseByte_unlocked by exact Hm ].

Lemma fireAll_app (hs1 hs2 : list Hook) (r r1 : Result) :
  fireAll hs1 r = Ok (tt, r1) ->
  fireAll (hs1 ++ hs2) r = fireAll hs2 r1.
Proof.
  revert r. induction hs1 as [|h hs1 IH]; intros r E.
  - injection E as ->. reflexivity.
  - cbn [fireAll app] in *. unfold bind in *.
    destruct (fire h r) as [[[] r']| |]; try discriminate.
    now apply IH.
Qed.

(** A property of states that every hook of a kind keeps, with the lock
    free, is kept by any number of them. *)
Lemma fireAll_keeps (P : Result -> Prop) (ok : Hook -> bool) :
  (forall h r, unlocked r -> P r -> ok h = true ->
     exists r', fire h r = Ok (tt, r') /\ unlocked r' /\ P r') ->
  forall hs r, unlocked r -> P r -> forallb ok hs = true ->
     exists r', fireAll hs r = Ok (tt, r') /\ unlocked r' /\ P r'.
Proof.
  intros Hstep hs. induction hs as [|h hs IH]; intros r Hm Hp Hh.
  - exists r. auto.
  - cbn [forallb] in Hh. apply andb_true_iff in Hh. destruct Hh as [Hh1 Hh2].
    destruct (Hstep h r Hm Hp Hh1) as [r1 [E1 [Hm1 Hp1]]].
    destruct (IH r1 Hm1 Hp1 Hh2) as [r2 [E2 H2]].
    exists r2. split; [|exact H2].
    cbn [fireAll]. unfold bind. rewrite E1. exact E2.
Qed.

(* ================================================================== *)
(** ** The DNS and connect hooks *)

(** C9 as stated fails: fired at instant 9 on a [Result] whose [dnsStart]
    is already set to instant 5, the DNS-start hook leaves 9, not 5. *)
Lemma DNSStart_first_write_lost :
  exists r1 r2,
    withClientTrace.DNSStart 5 zeroResult = Ok (tt, r1) /\
    dnsStart r1 = 5 /\ IsZero (dnsStart r1) = false /\
    withClientTrace.DNSStart 9 r1 = Ok (tt, r2) /\
    dnsStart r2 = 9 /\ dnsStart r2 <> dnsStart r1.
Proof.
  eexists. eexists.
  refine (conj eq_refl (conj eq_refl (conj eq_refl (conj eq_refl
           (conj eq_refl _))))).
  cbn. discriminate.
Qed.

(** C9, amended: the DNS-start hook assigns the current instant to
    [dnsStart] whether or not [dnsStart] was set before, so when it fires
    again the last write wins; it changes nothing else. *)
Theorem DNSStart_last_write_wins (r : Result) (now : Time) :
  unlocked r ->
  exists r',
    withClientTrace.DNSStart now r = Ok (tt, r') /\
    dnsStart r' = now /\
    r' = { r with dnsStart := now }.
Proof.
  intros Hm. rewrite DNSStart_unlocked by assumption.
  eexists; split; [reflexivity|]. destruct r; split; reflexivity.
Qed.

Lemma DNSStart_last_write_wins_witness :
  unlocked { zeroResult with dnsStart := 5 } /\
  exists r',
    withClientTrace.DNSStart 9 { zeroResult with dnsStart := 5 } =
      Ok (tt, r') /\
    dnsStart r' = 9.
Proof.
  assert (Hm : unlocked { zeroResult with dnsStart := 5 }) by reflexivity.
  split; [exact Hm|].
  destruct (DNSStart_last_write_wins _ 9 Hm) as [r' [H1 [H2 _]]].
  exists r'. split; assumption.
Defined.

(** C7: fired with [dnsStart] unset, the connect-start hook sets
    [tcpStart] to the current instant and [dnsStart] and [dnsDone] to
    [tcpStart]; after the connect-done hook that follows, [Connect] equals
    [TCPConnection], the DNS phase [dnsDone.Sub(dnsStart)] is zero, and
    [DNSLookup], which no DNS hook has computed, is still zero. *)
Theorem ConnectStart_without_DNS (r : Result) (t1 t2 : Time) :
  unlocked r ->
  IsZero (dnsStart r) = true ->
  DNSLookup r = 0 ->
  exists r1 r2,
    withClientTrace.ConnectStart t1 r = Ok (tt, r1) /\
    tcpStart r1 = t1 /\ dnsStart r1 = tcpStart r1 /\
    dnsDone r1 = tcpStart r1 /\
    withClientTrace.ConnectDone t2 r1 = Ok (tt, r2) /\
    DNSLookup r2 = 0 /\
    Sub (dnsDone r2) (dnsStart r2) = 0 /\
    Connect r2 = TCPConnection r2 /\
    TCPConnection r2 = Sub t2 t1.
Proof.
  intros Hm Hz Hl.
  rewrite ConnectStart_unlocked, Hz by assumption.
  eexists; eexists; split; [reflexivity|].
  rewrite ConnectDone_unlocked by (open_unlocked r Hm; reflexivity).
  refine (conj _ (conj _ (conj _ (conj eq_refl _))));
    destruct r; fields; rewrite ?Sub_diag; repeat split; assumption.
Qed.

Lemma ConnectStart_without_DNS_witness :
  unlocked zeroResult /\ IsZero (dnsStart zeroResult) = true /\
  DNSLookup zeroResult = 0 /\
  exists r2,
    fireAll [ConnectStart 10; ConnectDone 30] zeroResult = Ok (tt, r2) /\
    DNSLookup r2 = 0 /\ Connect r2 = TCPConnection r2.
Proof.
  repeat (split; [reflexivity|]).
  destruct (ConnectStart_without_DNS zeroResult 10 30 eq_refl eq_refl eq_refl)
    as [r1 [r2 [H1 [_ [_ [_ [H2 [H3 [_ [H4 _]]]]]]]]]].
  exists r2. split; [|split; assumption].
  cbn [fireAll fire]. unfold bind. rewrite H1, H2. reflexivity.
Defined.

(* ================================================================== *)
(** ** The end-to-end scenario *)

(** C1: with the request starting at any instant [b] other than the zero
    instant: DNS start at [b], DNS done 10ms later, connect start at 10ms,
    connect done at 30ms, request written at 30ms with no TLS handshake,
    first response byte at 50ms and [Done] at 70ms give [DNSLookup] = 10ms,
    [TCPConnection] = 20ms, [Connect] = 30ms, [TLSHandshake] = 0,
    [Pretransfer] = 30ms, [ServerProcessing] = 20ms, [StartTransfer] = 50ms,
    [contentTransfer] = 20ms and [total] = 70ms. *)
Theorem end_to_end_scenario (b : Time) :
  b <> 0 ->
  exists r,
    (fireAll [DNSStart b;
              DNSDone (Add b (ms 10));
              ConnectStart (Add b (ms 10));
              ConnectDone (Add b (ms 30));
              WroteRequest (Add b (ms 30));
              GotFirstResponseByte (Add b (ms 50))] ;;
     Done (Add b (ms 70))) zeroResult = Ok (tt, r) /\
    isTLS r = false /\
    DNSLookup r = ms 10 /\
    TCPConnection r = ms 20 /\
    Connect r = ms 30 /\
    TLSHandshake r = 0 /\
    Pretransfer r = ms 30 /\
    ServerProcessing r = ms 20 /\
    StartTransfer r = ms 50 /\
    contentTransfer r = ms 20 /\
    total r = ms 70.
Proof.
  intros Hb. apply IsZero_false in Hb.
  eexists. split.
  - exec. repeat (rewrite Hb; exec). reflexivity.
  - cbn. unfold Add.
    repeat split;
      rewrite Sub_exact; unfold minDuration, maxDuration, ms, Millisecond,
        Microsecond, Nanosecond; lia.
Qed.

Lemma end_to_end_scenario_witness :
  1000 <> 0 /\
  exists r,
    (fireAll [DNSStart 1000;
              DNSDone (Add 1000 (ms 10));
              ConnectStart (Add 1000 (ms 10));
              ConnectDone (Add 1000 (ms 30));
              WroteRequest (Add 1000 (ms 30));
              GotFirstResponseByte (Add 1000 (ms 50))] ;;
     Done (Add 1000 (ms 70))) zeroResult = Ok (tt, r) /\
    Connect r = ms 30 /\ total r = ms 70.
Proof.
  split; [lia|].
  destruct (end_to_end_scenario 1000 ltac:(lia))
    as [r [H1 [_ [_ [_ [H2 [_ [_ [_ [_ [_ H3]]]]]]]]]]].
  exists r. repeat split; assumption.
Defined.

(* ================================================================== *)
(** ** Durations are never negative *)

Lemma notAfter_mono (lo hi : Time) (r : Result) :
  lo <= hi -> notAfter lo r -> notAfter hi r.
Proof. unfold notAfter. intros; intuition lia. Qed.

Lemma nondecreasing_app (lo : Time) (ts us : list Time) (hi : Time) :
  nondecreasing lo ((ts ++ us) ++ [hi]) ->
  exists mid, nondecreasing lo (ts ++ [mid]) /\
              nondecreasing mid (us ++ [hi]).
Proof.
  revert lo. induction ts as [|t ts IH]; intros lo H.
  - exists lo. cbn in *. split; [split; [lia|exact I]|exact H].
  - cbn in H. destruct H as [H1 H2].
    destruct (IH t H2) as [mid [Ha Hb]].
    exists mid. cbn. auto.
Qed.

Ltac nonneg_fields :=
  unfold nonNegative, notAfter, fillsConn in *; fields;
  repeat match goal with
         | |- context [if ?b then _ else _] => destruct b
         end;
  cbn in *;
  repeat match goal with
         | |- _ /\ _ => split
         | |- 0 <= Sub _ _ => apply Sub_nonneg
         end;
  try reflexivity; try lia.

(** One hook, fired at or after every timestamp recorded so far. *)
Lemma fire_nonNegative (h : Hook) (r : Result) (lo hi : Time) :
  unlocked r -> nonNegative r -> notAfter lo r ->
  nondecreasing lo (reading h ++ [hi]) ->
  exists r',
    fire h r = Ok (tt, r') /\ unlocked r' /\ nonNegative r' /\
    notAfter hi r'.
Proof.
  intros Hm Hn Hl Ht.
  destruct h; fired Hm; leaves r Hm; nonneg_fields.
Qed.

(** Any number of hooks, each fired at or after the one before. *)
Lemma fireAll_nonNegative (hs : list Hook) (r : Result) (lo hi : Time) :
  unlocked r -> nonNegative r -> notAfter lo r ->
  nondecreasing lo (readings hs ++ [hi]) ->
  exists r',
    fireAll hs r = Ok (tt, r') /\ unlocked r' /\ nonNegative r' /\
    notAfter hi r'.
Proof.
  revert r lo. induction hs as [|h hs IH]; intros r lo Hm Hn Hl Ht.
  - exists r. cbn in Ht.
    refine (conj eq_refl (conj Hm (conj Hn _))).
    apply notAfter_mono with lo; [lia|assumption].
  - unfold readings in Ht. cbn [flat_map] in Ht.
    apply nondecreasing_app in Ht. destruct Ht as [mid [Ha Hb]].
    destruct (fire_nonNegative h r lo mid Hm Hn Hl Ha)
      as [r1 [E1 [Hm1 [Hn1 Hl1]]]].
    destruct (IH r1 mid Hm1 Hn1 Hl1 Hb) as [r2 [E2 H2]].
    exists r2. split; [|exact H2].
    cbn [fireAll]. unfold bind. rewrite E1. exact E2.
Qed.

Lemma Done_nonNegative (r : Result) (lo t : Time) :
  unlocked r -> nonNegative r -> notAfter lo r -> lo <= t ->
  exists r', Done t r = Ok (tt, r') /\ nonNegative r' /\ notAfter t r'.
Proof.
  intros Hm Hn Hl Ht. rewrite Done_unlocked by assumption.
  leaves r Hm. nonneg_fields.
Qed.

(** C5: let the transport fire any hooks in any order and the caller then
    call [Done], on a fresh [Result], with clock readings that never go
    back (and are not before the zero instant).  Every call returns, and
    after every hook and after [Done] each derived duration ([DNSLookup],
    [NameLookup], [TCPConnection], [TLSHandshake], [ServerProcessing],
    [contentTransfer], [Connect], [Pretransfer], [StartTransfer], [total])
    is at least zero. *)
Theorem durations_never_negative (hs1 hs2 : list Hook) (t : Time) :
  nondecreasing 0 (readings (hs1 ++ hs2) ++ [t]) ->
  exists r1 r2 r3,
    fireAll hs1 zeroResult = Ok (tt, r1) /\ nonNegative r1 /\
    fireAll hs2 r1 = Ok (tt, r2) /\ nonNegative r2 /\
    fireAll (hs1 ++ hs2) zeroResult = Ok (tt, r2) /\
    Done t r2 = Ok (tt, r3) /\ nonNegative r3.
Proof.
  intros Ht. unfold readings in Ht. rewrite flat_map_app in Ht.
  apply nondecreasing_app in Ht. destruct Ht as [mid [Ha Hb]].
  assert (Hz : nonNegative zeroResult)
    by (unfold nonNegative; cbn; repeat split; lia).
  assert (Hl : notAfter 0 zeroResult)
    by (unfold notAfter; cbn; repeat split; lia).
  destruct (fireAll_nonNegative hs1 zeroResult 0 mid eq_refl Hz Hl Ha)
    as [r1 [E1 [Hm1 [Hn1 Hl1]]]].
  destruct (fireAll_nonNegative hs2 r1 mid t Hm1 Hn1 Hl1 Hb)
    as [r2 [E2 [Hm2 [Hn2 Hl2]]]].
  destruct (Done_nonNegative r2 t t Hm2 Hn2 Hl2 (Z.le_refl t))
    as [r3 [E3 [Hn3 _]]].
  exists r1, r2, r3.
  refine (conj E1 (conj Hn1 (conj E2 (conj Hn2 (conj _ (conj E3 Hn3)))))).
  rewrite (fireAll_app hs1 hs2 zeroResult r1 E1). exact E2.
Qed.

Lemma durations_never_negative_witness :
  nondecreasing 0
    (readings ([ConnectStart 10; ConnectDone 30] ++
               [WroteRequest 30; GotFirstResponseByte 50]) ++ [70]) /\
  exists r3,
    (fireAll ([ConnectStart 10; ConnectDone 30] ++
              [WroteRequest 30; GotFirstResponseByte 50]) ;; Done 70)
      zeroResult = Ok (tt, r3) /\
    nonNegative r3.
Proof.
  assert (H : nondecreasing 0
    (readings ([ConnectStart 10; ConnectDone 30] ++
               [WroteRequest 30; GotFirstResponseByte 50]) ++ [70]))
    by (cbn; lia).
  split; [exact H|].
  destruct (durations_never_negative _ _ _ H)
    as [r1 [r2 [r3 [_ [_ [_ [_ [E [E3 Hn]]]]]]]]].
  exists r3. split; [|exact Hn].
  unfold bind at 1. rewrite E. exact E3.
Defined.

(* ================================================================== *)
(** ** Unset timestamps *)

Ltac guarded_fields :=
  repeat match goal with
         | H : Ok _ = Ok _ |- _ => injection H as <-
         | H : Blocked = Ok _ |- _ => discriminate H
         | H : Fatal = Ok _ |- _ => discriminate H
         | H : context [if ?b then _ else _] |- _ =>
             let E := fresh "E" in destruct b eqn:E; exec
         end.






(* ================================================================== *)
(** ** The request-written hook *)

Lemma fire_keeps_plaintext (h : Hook) (r : Result) :
  unlocked r -> isTLS r = false -> negb (startsTLS h) = true ->
  exists r', fire h r = Ok (tt, r') /\ unlocked r' /\ isTLS r' = false.
Proof.
  intros Hm Hp Hh.
  destruct h; try discriminate Hh; fired Hm; leaves r Hm;
    cbn in Hp; subst;
    repeat match goal with
           | |- context [if ?b then _ else _] => destruct b
           end; split; reflexivity.
Qed.

(** C6: fired with the lock free, the request-written hook sets
    [serverStart] to the current instant and then: (a) when neither
    [dnsStart] nor [tcpStart] is set, sets [dnsStart], [dnsDone],
    [tcpStart], [tcpDone] to [serverStart]; (b) when [isReused] is set,
    sets those four and [tlsStart], [tlsDone] to [serverStart]; (c) when
    [isTLS] is not set, sets [TLSHandshake] to zero and [Pretransfer] to
    [Connect]; it changes nothing else.  On a reused connection (request
    written, a first byte later, [Done]) [DNSLookup], [TCPConnection],
    [TLSHandshake] are zero and [ServerProcessing] is positive.  With no
    TLS handshake started, after the request is written (and the first
    byte, and [Done]) [TLSHandshake] is zero and [Pretransfer] equals
    [Connect]. *)
Theorem WroteRequest_backfill :
  (forall (r : Result) (now : Time),
      unlocked r ->
      exists r',
        withClientTrace.WroteRequest now r = Ok (tt, r') /\
        unlocked r' /\
        serverStart r' = now /\
        (IsZero (dnsStart r) && IsZero (tcpStart r) = true ->
           dnsStart r' = serverStart r' /\ dnsDone r' = serverStart r' /\
           tcpStart r' = serverStart r' /\ tcpDone r' = serverStart r') /\
        (isReused r = true ->
           dnsStart r' = serverStart r' /\ dnsDone r' = serverStart r' /\
           tcpStart r' = serverStart r' /\ tcpDone r' = serverStart r' /\
           tlsStart r' = serverStart r' /\ tlsDone r' = serverStart r') /\
        (IsZero (dnsStart r) && IsZero (tcpStart r) = false ->
         isReused r = false ->
           dnsStart r' = dnsStart r /\ dnsDone r' = dnsDone r /\
           tcpStart r' = tcpStart r /\ tcpDone r' = tcpDone r) /\
        (isReused r = false ->
           tlsStart r' = tlsStart r /\ tlsDone r' = tlsDone r) /\
        (isTLS r = false ->
           TLSHandshake r' = 0 /\ Pretransfer r' = Connect r') /\
        (isTLS r = true ->
           TLSHandshake r' = TLSHandshake r /\
           Pretransfer r' = Pretransfer r) /\
        DNSLookup r' = DNSLookup r /\ NameLookup r' = NameLookup r /\
        TCPConnection r' = TCPConnection r /\ Connect r' = Connect r /\
        ServerProcessing r' = ServerProcessing r /\
        StartTransfer r' = StartTransfer r /\
        contentTransfer r' = contentTransfer r /\ total r' = total r /\
        serverDone r' = serverDone r /\
        transferStart r' = transferStart r /\
        transferDone r' = transferDone r /\
        isTLS r' = isTLS r /\ isReused r' = isReused r) /\
  (forall (i : GotConnInfo) (t1 t2 t3 : Time),
      Reused i = true -> t1 < t2 ->
      exists r,
        (fireAll [GotConn i; WroteRequest t1; GotFirstResponseByte t2] ;;
         Done t3) zeroResult = Ok (tt, r) /\
        DNSLookup r = 0 /\ TCPConnection r = 0 /\ TLSHandshake r = 0 /\
        0 < ServerProcessing r) /\
  (forall (hs : list Hook) (now t2 t3 : Time),
      forallb (fun h => negb (startsTLS h)) hs = true ->
      exists r1 r2,
        fireAll (hs ++ [WroteRequest now]) zeroResult = Ok (tt, r1) /\
        isTLS r1 = false /\
        TLSHandshake r1 = 0 /\ Pretransfer r1 = Connect r1 /\
        (withClientTrace.GotFirstResponseByte t2 ;; Done t3) r1 =
          Ok (tt, r2) /\
        TLSHandshake r2 = 0 /\ Pretransfer r2 = Connect r2).
Proof.
  refine (conj _ (conj _ _)).
  - intros r now Hm. rewrite WroteRequest_unlocked by assumption.
    leaves r Hm. unfold fillsConn. fields.
    repeat match goal with
           | |- _ /\ _ => split
           end; try reflexivity; intros;
      destruct (IsZero dnsStart0), (IsZero tcpStart0), isReused0, isTLS0;
      cbn in *; try discriminate; auto 10.
  - intros [reused ? ?] t1 t2 t3 Hr Hlt. cbn in Hr. subst reused.
    exec. change (IsZero 0) with true. exec.
    destruct (IsZero t1); exec;
      (eexists; split; [reflexivity|]); cbn; rewrite Sub_diag;
      refine (conj eq_refl (conj eq_refl (conj eq_refl _)));
      now apply Sub_pos.
  - intros hs now t2 t3 Hh.
    destruct (fireAll_keeps (fun r => isTLS r = false)
                (fun h => negb (startsTLS h)) fire_keeps_plaintext
                hs zeroResult eq_refl eq_refl Hh)
      as [r0 [E0 [Hm0 Hp0]]].
    rewrite (fireAll_app hs _ zeroResult r0 E0).
    cbn [fireAll fire]. unfold bind at 1.
    rewrite WroteRequest_unlocked by assumption.
    clear E0 Hh. open_unlocked r0 Hm0. cbn in Hp0. subst. exec.
    destruct (IsZero now) eqn:En, (IsZero dnsStart0) eqn:Ed,
      (IsZero tcpStart0), isReused0;
      (eexists; eexists; split; [reflexivity|]); exec;
      refine (conj eq_refl (conj eq_refl (conj eq_refl _)));
      rewrite ?Ed, ?En; exec;
      refine (conj eq_refl (conj eq_refl eq_refl)).
Qed.

Lemma WroteRequest_backfill_witness :
  unlocked zeroResult /\
  (exists r',
      withClientTrace.WroteRequest 30 zeroResult = Ok (tt, r') /\
      serverStart r' = 30 /\ dnsStart r' = 30 /\ tcpDone r' = 30 /\
      TLSHandshake r' = 0 /\ Pretransfer r' = Connect r') /\
  Reused (mkGotConnInfo true true 0) = true /\ 30 < 50 /\
  (exists r,
      (fireAll [GotConn (mkGotConnInfo true true 0); WroteRequest 30;
                GotFirstResponseByte 50] ;; Done 70) zeroResult =
        Ok (tt, r) /\
      DNSLookup r = 0 /\ TCPConnection r = 0 /\ TLSHandshake r = 0 /\
      0 < ServerProcessing r).
Proof.
  destruct WroteRequest_backfill as [Ha [Hb _]].
  split; [reflexivity|]. split.
  - destruct (Ha zeroResult 30 eq_refl)
      as [r' [E [_ [Hs [Hl [_ [_ [_ [Hp _]]]]]]]]].
    exists r'. destruct (Hl eq_refl) as [H1 [_ [_ H4]]].
    destruct (Hp eq_refl) as [H5 H6].
    rewrite H1, H4.
    refine (conj E (conj Hs (conj Hs (conj Hs (conj H5 H6))))).
  - split; [reflexivity|]. split; [lia|].
    exact (Hb (mkGotConnInfo true true 0) 30 50 70 eq_refl ltac:(lia)).
Defined.

(* ================================================================== *)
(** ** A reused connection *)





(* ================================================================== *)
(** ** Runs of any length *)

(** A property of states that every event keeps is kept by every run. *)
Lemma run_keeps (P : Result -> Prop) :
  (forall e r r', step e r = Ok (tt, r') -> P r -> P r') ->
  forall es r r', run es r = Ok (tt, r') -> P r -> P r'.
Proof.
  intros Hstep es. induction es as [|e es IH]; intros r r' E Hp.
  - injection E as <-. exact Hp.
  - cbn [run] in E. unfold bind in E.
    destruct (step e r) as [[[] r1]| |] eqn:E1; try discriminate.
    exact (IH r1 r' E (Hstep e r r1 E1 Hp)).
Qed.

(** Run one event on a [Result] given by its fields and its lock, and look
    at each way it can end. *)
Ltac by_cases_of e r :=
  destruct r as [[w n] ? ? ? ? ? ? ? ? ? ? ? ? ? ? ? ? ? ? ? ? ? ?];
  destruct e as [[now|now|now|now|now|now|[reused ? ?]|now|now]|t];
  destruct w, n; exec; guarded_fields.

Lemma step_keeps_flags (e : Event) (r r' : Result) :
  step e r = Ok (tt, r') ->
  (isTLS r = true -> isTLS r' = true) /\
  (isReused r = true -> isReused r' = true).
Proof.
  intros E. by_cases_of e r; cbn; auto.
Qed.

(** X1: no hook and no call of [Done] ever clears [isTLS] or [isReused]:
    once set they stay set through any further events, so a [Result] that
    has seen a TLS handshake or a reused connection keeps saying so. *)
Theorem flags_never_cleared (es : list Event) (r r' : Result) :
  run es r = Ok (tt, r') ->
  (isTLS r = true -> isTLS r' = true) /\
  (isReused r = true -> isReused r' = true).
Proof.
  intros E.
  apply (run_keeps
           (fun x => (isTLS r = true -> isTLS x = true) /\
                     (isReused r = true -> isReused x = true)) )
    with (es := es) (r := r); [|exact E|auto].
  intros e x x' Ex [H1 H2]. destruct (step_keeps_flags e x x' Ex) as [H3 H4].
  auto.
Qed.

Lemma flags_never_cleared_witness :
  isReused dialedThenReused = true /\
  exists r',
    run [Fire (WroteRequest 40); Fire (GotFirstResponseByte 60); CallDone 70]
        dialedThenReused = Ok (tt, r') /\
    isReused r' = true.
Proof.
  split; [reflexivity|].
  eassert (E : run [Fire (WroteRequest 40); Fire (GotFirstResponseByte 60);
                    CallDone 70] dialedThenReused = Ok (tt, _))
    by (vm_compute; reflexivity).
  eexists. split; [exact E|].
  exact (proj2 (flags_never_cleared _ _ _ E) eq_refl).
Defined.

Lemma step_twinned (e : Event) (r r' : Result) :
  step e r = Ok (tt, r') -> twinned r -> twinned r'.
Proof.
  intros E [H1 H2]. unfold twinned.
  by_cases_of e r; cbn in *; subst; auto.
Qed.

(** X2: in every state reached from a fresh [Result] by hooks and calls of
    [Done], in any order and at any instants, [NameLookup] equals
    [DNSLookup] and [transferStart] equals [serverDone]. *)
Theorem twins_agree (es : list Event) (r : Result) :
  run es zeroResult = Ok (tt, r) ->
  NameLookup r = DNSLookup r /\ transferStart r = serverDone r.
Proof.
  intros E.
  apply (run_keeps twinned step_twinned es zeroResult r E).
  split; reflexivity.
Qed.

Lemma twins_agree_witness :
  exists r,
    run [Fire (DNSStart 5); Fire (DNSDone 8); Fire (GotFirstResponseByte 50)]
        zeroResult = Ok (tt, r) /\
    NameLookup r = DNSLookup r /\ transferStart r = serverDone r.
Proof.
  eassert (E : run [Fire (DNSStart 5); Fire (DNSDone 8);
                    Fire (GotFirstResponseByte 50)] zeroResult = Ok (tt, _))
    by (vm_compute; reflexivity).
  eexists. split; [exact E|]. exact (twins_agree _ _ E).
Defined.

(** X3: on a [Result] reached from a fresh one, with the lock free and
    [dnsStart] set, [Done t] stores what the accessors compute: right after
    it, [ContentTransfer t] returns the stored [contentTransfer] and
    [Total t] the stored [total]. *)
Theorem Done_stores_what_accessors_read
  (es : list Event) (r : Result) (t : Time) :
  run es zeroResult = Ok (tt, r) ->
  unlocked r ->
  IsZero (dnsStart r) = false ->
  exists r',
    Done t r = Ok (tt, r') /\
    ContentTransfer t r' = Ok (contentTransfer r', r') /\
    Total t r' = Ok (total r', r').
Proof.
  intros E Hm Hz.
  destruct (run_keeps twinned step_twinned es zeroResult r E) as [_ Hs];
    [split; reflexivity|].
  rewrite (Done_unlocked r t Hm), Hz.
  eexists; split; [reflexivity|].
  rewrite ContentTransfer_read, Total_read
    by (open_unlocked r Hm; reflexivity).
  destruct r; fields. subst. split; reflexivity.
Qed.

Lemma Done_stores_what_accessors_read_witness :
  exists r,
    run [Fire (ConnectStart 10); Fire (WroteRequest 30);
         Fire (GotFirstResponseByte 50)] zeroResult = Ok (tt, r) /\
    unlocked r /\ IsZero (dnsStart r) = false /\
    exists r',
      Done 70 r = Ok (tt, r') /\
      ContentTransfer 70 r' = Ok (contentTransfer r', r') /\
      Total 70 r' = Ok (total r', r').
Proof.
  eassert (E : run [Fire (ConnectStart 10); Fire (WroteRequest 30);
                    Fire (GotFirstResponseByte 50)] zeroResult = Ok (tt, _))
    by (vm_compute; reflexivity).
  eexists. split; [exact E|].
  split; [reflexivity|]. split; [reflexivity|].
  exact (Done_stores_what_accessors_read _ _ 70 E eq_refl eq_refl).
Defined.

(* ================================================================== *)
(** ** The lock over a whole run *)

Lemma fire_unlocked (h : Hook) (r : Result) :
  unlocked r -> exists r', fire h r = Ok (tt, r') /\ unlocked r'.
Proof.
  intros Hm. destruct h; fired Hm; leaves r Hm;
    repeat match goal with
           | |- context [if ?b then _ else _] => destruct b
           end; reflexivity.
Qed.

Lemma step_unlocked (e : Event) (r : Result) :
  unlocked r ->
  exists r',
    step e r = Ok (tt, r') /\
    (unlocked r' \/
     (m r' = mkRWMutex true 0 /\ IsZero (dnsStart r') = true /\
      IsZero (dnsStart r) = true /\ exists t, e = CallDone t)).
Proof.
  intros Hm. destruct e as [h|t]; cbn [step].
  - destruct (fire_unlocked h r Hm) as [r' [E Hm']]. exists r'. auto.
  - rewrite Done_unlocked by assumption.
    destruct (IsZero (dnsStart r)) eqn:Hz; eexists; (split; [reflexivity|]).
    + right. open_unlocked r Hm. cbn in Hz. cbn. eauto.
    + left. open_unlocked r Hm. reflexivity.
Qed.

Lemma step_leaked (e : Event) (r : Result) :
  m r = mkRWMutex true 0 ->
  step e r = Blocked \/ step e r = Ok (tt, r).
Proof.
  intros Hm. destruct r; cbn [m] in Hm; subst.
  destruct e as [[now|now|now|now|now|now|[[] ? ?]|now|now]|t]; auto.
Qed.

Lemma run_leaked (es : list Event) (r : Result) :
  m r = mkRWMutex true 0 ->
  run es r = Blocked \/ run es r = Ok (tt, r).
Proof.
  intros Hm. induction es as [|e es IH]; [right; reflexivity|].
  cbn [run]. unfold bind.
  destruct (step_leaked e r Hm) as [E|E]; rewrite E; auto.
Qed.

Lemma run_from_unlocked (es : list Event) (r : Result) :
  unlocked r ->
  match run es r with
  | Ok (_, r') => freeOrLeaked r'
  | Blocked =>
      exists es1 t es2 r1,
        es = es1 ++ CallDone t :: es2 /\
        run es1 r = Ok (tt, r1) /\
        unlocked r1 /\ IsZero (dnsStart r1) = true
  | Fatal => False
  end.
Proof.
  revert r. induction es as [|e es IH]; intros r Hm.
  - left. exact Hm.
  - cbn [run]. unfold bind.
    destruct (step_unlocked e r Hm) as [r' [E [Hm'|[Hl [Hz' [Hz [t He]]]]]]];
      rewrite E.
    + specialize (IH r' Hm'). destruct (run es r') as [[[] r2]| |]; auto.
      destruct IH as [es1 [t [es2 [r1 [H1 [H2 [H3 H4]]]]]]].
      exists (e :: es1), t, es2, r1. subst es.
      split; [reflexivity|]. split; [|auto].
      cbn [run]. unfold bind. rewrite E. exact H2.
    + subst e. destruct (run_leaked es r' Hl) as [Eb|Eo]; rewrite ?Eb, ?Eo.
      * exists [], t, es, r. auto.
      * right. auto.
Qed.

(** X4: no run of hooks and [Done] calls on a fresh [Result] ever unlocks
    a lock that is not held (the runtime's fatal error).  A run that ends
    leaves the lock free, or write-held with [dnsStart] unset; and a run
    waits forever on the lock only after a [Done] that was called with the
    lock free and [dnsStart] unset. *)
Theorem run_blocks_only_after_empty_Done (es : list Event) :
  match run es zeroResult with
  | Ok (_, r) => freeOrLeaked r
  | Blocked =>
      exists es1 t es2 r1,
        es = es1 ++ CallDone t :: es2 /\
        run es1 zeroResult = Ok (tt, r1) /\
        unlocked r1 /\ IsZero (dnsStart r1) = true
  | Fatal => False
  end.
Proof. apply run_from_unlocked. reflexivity. Qed.

(** X5: once [Done] has returned early (lock free, [dnsStart] unset), the
    next hook that takes the lock waits forever; the one hook that still
    returns is connection-obtained without reuse, which does not lock. *)
Theorem hooks_block_after_empty_Done (r : Result) (t : Time) (h : Hook) :
  unlocked r ->
  IsZero (dnsStart r) = true ->
  (Done t ;; fire h) r = if takesLock h then Blocked else Done t r.
Proof.
  intros Hm Hz. unfold bind. rewrite (Done_unlocked r t Hm), Hz.
  open_unlocked r Hm.
  destruct h as [now|now|now|now|now|now|[[] ? ?]|now|now]; reflexivity.
Qed.

Lemma hooks_block_after_empty_Done_witness :
  unlocked zeroResult /\ IsZero (dnsStart zeroResult) = true /\
  (Done 70 ;; fire (DNSStart 80)) zeroResult = Blocked.
Proof.
  split; [reflexivity|]. split; [reflexivity|].
  exact (hooks_block_after_empty_Done zeroResult 70 (DNSStart 80)
           eq_refl eq_refl).
Defined.

(* ================================================================== *)
(** ** Timelines *)

(** X6: the hooks of a request over a fresh TLS connection, each firing
    once in the transport's order at instants that do not go back,
    starting after the zero instant and ending within a [Duration] of the
    start.  Each phase duration is the difference of its two instants and
    each cumulative duration is measured from [dnsStart]; the cumulative
    ones come in order, and each is the one before it plus the gap
    between the two phases plus the phase it closes. *)
Theorem https_timeline
  (i : GotConnInfo) (t0 t1 t2 t3 t4 t5 t6 t7 : Time) :
  Reused i = false ->
  0 < t0 ->
  nondecreasing t0 [t1; t2; t3; t4; t5; t6; t7] ->
  t7 - t0 <= maxDuration ->
  exists r,
    fireAll [DNSStart t0; DNSDone t1; ConnectStart t2; ConnectDone t3;
             TLSHandshakeStart t4; TLSHandshakeDone t5; GotConn i;
             WroteRequest t6; GotFirstResponseByte t7]
            zeroResult = Ok (tt, r) /\
    unlocked r /\
    DNSLookup r = t1 - t0 /\ NameLookup r = t1 - t0 /\
    TCPConnection r = t3 - t2 /\ TLSHandshake r = t5 - t4 /\
    ServerProcessing r = t7 - t6 /\
    Connect r = t3 - t0 /\ Pretransfer r = t5 - t0 /\
    StartTransfer r = t7 - t0 /\
    NameLookup r <= Connect r /\ Connect r <= Pretransfer r /\
    Pretransfer r <= StartTransfer r /\
    Connect r =
      NameLookup r + Sub (tcpStart r) (dnsDone r) + TCPConnection r /\
    Pretransfer r =
      Connect r + Sub (tlsStart r) (tcpDone r) + TLSHandshake r /\
    StartTransfer r =
      Pretransfer r + Sub (serverStart r) (tlsDone r) + ServerProcessing r.
Proof.
  intros Hi Hp Ht Hr. cbn in Ht.
  assert (Hb : IsZero t0 = false) by (apply IsZero_false; lia).
  destruct i as [reused ? ?]. cbn in Hi. subst reused.
  eexists. split.
  - exec. repeat (rewrite Hb; exec). reflexivity.
  - split; [reflexivity|]. cbn.
    unfold maxDuration in Hr.
    rewrite !Sub_exact by (unfold minDuration, maxDuration; lia).
    repeat split; lia.
Qed.

Lemma https_timeline_witness :
  Reused (mkGotConnInfo false false 0) = false /\ 0 < 1000 /\
  nondecreasing 1000 [1010; 1010; 1030; 1030; 1045; 1045; 1060] /\
  1060 - 1000 <= maxDuration /\
  exists r,
    fireAll [DNSStart 1000; DNSDone 1010; ConnectStart 1010;
             ConnectDone 1030; TLSHandshakeStart 1030;
             TLSHandshakeDone 1045; GotConn (mkGotConnInfo false false 0);
             WroteRequest 1045; GotFirstResponseByte 1060]
            zeroResult = Ok (tt, r) /\
    TLSHandshake r = 1045 - 1030 /\ Pretransfer r = 1045 - 1000 /\
    StartTransfer r = 1060 - 1000.
Proof.
  assert (H1 : 0 < 1000) by lia.
  assert (H2 : nondecreasing 1000
                 [1010; 1010; 1030; 1030; 1045; 1045; 1060])
    by (cbn; lia).
  assert (H3 : 1060 - 1000 <= maxDuration) by (vm_compute; discriminate).
  refine (conj eq_refl (conj H1 (conj H2 (conj H3 _)))).
  destruct (https_timeline (mkGotConnInfo false false 0)
              1000 1010 1010 1030 1030 1045 1045 1060 eq_refl H1 H2 H3)
    as [r [E [_ [_ [_ [_ [Ha [_ [_ [Hb [Hc _]]]]]]]]]]].
  exists r. auto.
Defined.

(** X7: a request whose transport fires no DNS, connect or TLS hook (no
    [DialContext], or an old [net] package): request written, first byte,
    [Done], with the request written at an instant other than the zero
    one.  Every connection phase reads zero, [Connect] and [Pretransfer]
    are zero, [StartTransfer] equals [ServerProcessing], and [total] is
    measured from the instant the request was written. *)
Theorem legacy_transport_timeline (t1 t2 t3 : Time) :
  t1 <> 0 ->
  exists r,
    (fireAll [WroteRequest t1; GotFirstResponseByte t2] ;; Done t3)
      zeroResult = Ok (tt, r) /\
    unlocked r /\
    DNSLookup r = 0 /\ NameLookup r = 0 /\ TCPConnection r = 0 /\
    TLSHandshake r = 0 /\ Connect r = 0 /\ Pretransfer r = 0 /\
    ServerProcessing r = Sub t2 t1 /\
    StartTransfer r = ServerProcessing r /\
    contentTransfer r = Sub t3 t2 /\
    total r = Sub t3 t1.
Proof.
  intros Hb. apply IsZero_false in Hb.
  exec. change (IsZero 0) with true. exec. rewrite Hb. exec.
  eexists. split; [reflexivity|]. cbn. rewrite Sub_diag.
  repeat split; reflexivity.
Qed.

Lemma legacy_transport_timeline_witness :
  30 <> 0 /\
  exists r,
    (fireAll [WroteRequest 30; GotFirstResponseByte 50] ;; Done 70)
      zeroResult = Ok (tt, r) /\
    StartTransfer r = ServerProcessing r /\ total r = Sub 70 30.
Proof.
  assert (H : 30 <> 0) by lia.
  split; [exact H|].
  destruct (legacy_transport_timeline 30 50 70 H)
    as [r [E [_ [_ [_ [_ [_ [_ [_ [_ [Ha [_ Hb]]]]]]]]]]]].
  exists r. auto.
Defined.

(** X9: on a reused connection without TLS, the request-written hook keeps
    the [Connect] stored before and copies it to [Pretransfer], while the
    first byte then measures [StartTransfer] from the instant the request
    was written; so [StartTransfer] is less than [Pretransfer] whenever the
    first byte comes sooner after the request than the stored [Connect]. *)
Theorem reuse_keeps_stored_Connect (r : Result) (now t : Time) :
  unlocked r ->
  isReused r = true ->
  isTLS r = false ->
  exists r1 r2,
    withClientTrace.WroteRequest now r = Ok (tt, r1) /\
    withClientTrace.GotFirstResponseByte t r1 = Ok (tt, r2) /\
    Connect r2 = Connect r /\ Pretransfer r2 = Connect r /\
    StartTransfer r2 = Sub t now /\
    (now <= t -> t - now < Connect r -> StartTransfer r2 < Pretransfer r2).
Proof.
  intros Hm Hr Hp.
  rewrite WroteRequest_unlocked by assumption.
  eexists; eexists; split; [reflexivity|].
  rewrite GotFirstResponseByte_unlocked by (open_unlocked r Hm; reflexivity).
  split; [reflexivity|].
  open_unlocked r Hm. unfold fillsConn. fields. subst.
  rewrite orb_true_r. cbn.
  refine (conj eq_refl (conj eq_refl (conj eq_refl _))).
  intros H1 H2. unfold Sub, minDuration, maxDuration.
  destruct (Z.ltb_spec (t - now) (- 2 ^ 63)); [lia|].
  destruct (Z.ltb_spec (2 ^ 63 - 1) (t - now)); lia.
Qed.

Lemma reuse_keeps_stored_Connect_witness :
  unlocked dialedThenReused /\ isReused dialedThenReused = true /\
  isTLS dialedThenReused = false /\ 40 <= 50 /\
  50 - 40 < Connect dialedThenReused /\
  exists r1 r2,
    withClientTrace.WroteRequest 40 dialedThenReused = Ok (tt, r1) /\
    withClientTrace.GotFirstResponseByte 50 r1 = Ok (tt, r2) /\
    StartTransfer r2 < Pretransfer r2.
Proof.
  assert (H1 : 40 <= 50) by lia.
  assert (H2 : 50 - 40 < Connect dialedThenReused) by reflexivity.
  refine (conj eq_refl (conj eq_refl (conj eq_refl (conj H1 (conj H2 _))))).
  destruct (reuse_keeps_stored_Connect dialedThenReused 40 50
              eq_refl eq_refl eq_refl)
    as [r1 [r2 [Ha [Hb [_ [_ [_ Hc]]]]]]].
  exists r1, r2. auto.
Defined.

(* ================================================================== *)
(** ** [Done] and the accessors during a request *)

(** X10: called twice in a row with the lock free, [Done] acts as its last
    call alone when [dnsStart] is set, and its second call waits forever
    when [dnsStart] is unset. *)
Theorem Done_twice (r : Result) (t1 t2 : Time) :
  unlocked r ->
  (Done t1 ;; Done t2) r =
  if IsZero (dnsStart r) then Blocked else Done t2 r.
Proof.
  intros Hm. unfold bind at 1. rewrite (Done_unlocked r t1 Hm).
  destruct (IsZero (dnsStart r)) eqn:Hz.
  - destruct r; reflexivity.
  - rewrite !Done_unlocked by (open_unlocked r Hm; reflexivity).
    destruct r; fields. rewrite Hz. reflexivity.
Qed.

Lemma Done_twice_witness :
  unlocked inFlight /\
  (Done 60 ;; Done 70) inFlight = Done 70 inFlight /\
  (Done 60 ;; Done 70) zeroResult = Blocked.
Proof.
  split; [reflexivity|]. split.
  - exact (Done_twice inFlight 60 70 eq_refl).
  - exact (Done_twice zeroResult 60 70 eq_refl).
Defined.

Lemma fire_leaves_totals (h : Hook) (r r' : Result) :
  fire h r = Ok (tt, r') ->
  contentTransfer r' = contentTransfer r /\ total r' = total r /\
  transferDone r' = transferDone r.
Proof.
  intros E.
  destruct r as [[w n] ? ? ? ? ? ? ? ? ? ? ? ? ? ? ? ? ? ? ? ? ? ?];
    destruct h as [now|now|now|now|now|now|[reused ? ?]|now|now];
    destruct w, n; exec; guarded_fields; cbn; auto.
Qed.

(** X11: no hook writes [contentTransfer], [total] or [transferDone]:
    through any hooks they keep their value, so on a fresh [Result] the
    stored totals are zero until [Done] is called. *)
Theorem hooks_leave_totals (hs : list Hook) (r r' : Result) :
  fireAll hs r = Ok (tt, r') ->
  contentTransfer r' = contentTransfer r /\ total r' = total r /\
  transferDone r' = transferDone r.
Proof.
  revert r. induction hs as [|h hs IH]; intros r E.
  - injection E as <-. auto.
  - cbn [fireAll] in E. unfold bind in E.
    destruct (fire h r) as [[[] r1]| |] eqn:E1; try discriminate.
    destruct (fire_leaves_totals h r r1 E1) as [H1 [H2 H3]].
    destruct (IH r1 E) as [H4 [H5 H6]].
    repeat split; congruence.
Qed.

Lemma hooks_leave_totals_witness :
  exists r',
    fireAll [ConnectStart 10; ConnectDone 30; WroteRequest 30;
             GotFirstResponseByte 50] zeroResult = Ok (tt, r') /\
    contentTransfer r' = 0 /\ total r' = 0 /\ transferDone r' = 0.
Proof.
  eassert (E : fireAll [ConnectStart 10; ConnectDone 30; WroteRequest 30;
                        GotFirstResponseByte 50] zeroResult = Ok (tt, _))
    by (vm_compute; reflexivity).
  eexists. split; [exact E|]. exact (hooks_leave_totals _ _ _ E).
Defined.

(** X12: after any hooks fired on a fresh [Result] at instants that do not
    go back (none before the zero instant), the accessors called at an
    instant [t] not before them return, and what [ContentTransfer t] and
    [Total t] return is not negative. *)
Theorem accessors_never_negative (hs : list Hook) (t : Time) :
  nondecreasing 0 (readings hs ++ [t]) ->
  exists r d1 d2,
    fireAll hs zeroResult = Ok (tt, r) /\
    ContentTransfer t r = Ok (d1, r) /\ 0 <= d1 /\
    Total t r = Ok (d2, r) /\ 0 <= d2.
Proof.
  intros Ht.
  assert (Hz : nonNegative zeroResult)
    by (unfold nonNegative; cbn; repeat split; lia).
  assert (Hl : notAfter 0 zeroResult)
    by (unfold notAfter; cbn; repeat split; lia).
  destruct (fireAll_nonNegative hs zeroResult 0 t eq_refl Hz Hl Ht)
    as [r [E [Hm [_ Hn]]]].
  assert (Hw : writer (m r) = false)
    by (unfold unlocked in Hm; now rewrite Hm).
  exists r, (Sub t (serverDone r)), (Sub t (dnsStart r)).
  unfold notAfter in Hn.
  refine (conj E (conj (ContentTransfer_read r t Hw)
           (conj _ (conj (Total_read r t Hw) _))));
    apply Sub_nonneg; tauto.
Qed.

Lemma accessors_never_negative_witness :
  nondecreasing 0 (readings [ConnectStart 10; WroteRequest 30] ++ [40]) /\
  exists r d1 d2,
    fireAll [ConnectStart 10; WroteRequest 30] zeroResult = Ok (tt, r) /\
    ContentTransfer 40 r = Ok (d1, r) /\ 0 <= d1 /\
    Total 40 r = Ok (d2, r) /\ 0 <= d2.
Proof.
  assert (H : nondecreasing 0
                (readings [ConnectStart 10; WroteRequest 30] ++ [40]))
    by (cbn; lia).
  split; [exact H|].
  exact (accessors_never_negative [ConnectStart 10; WroteRequest 30] 40 H).
Defined.

(* ================================================================== *)
(** ** When a result is empty *)

Lemma fire_origin (h : Hook) (r : Result) :
  Forall (fun now => now <> 0) (reading h) ->
  unlocked r -> originFirst r ->
  exists r',
    fire h r = Ok (tt, r') /\ unlocked r' /\ originFirst r' /\
    IsZero (dnsStart r') = IsZero (dnsStart r) && negb (setsOrigin h).
Proof.
  intros Hc Hm Ho. unfold originFirst in *.
  assert (Hnz : forall now, In now (reading h) -> IsZero now = false).
  { intros now Hin. apply IsZero_false.
    rewrite Forall_forall in Hc. now apply Hc. }
  clear Hc.
  destruct h as [now|now|now|now|now|now|[reused ? ?]|now|now];
    cbn [reading In] in Hnz;
    first [specialize (Hnz now (or_introl eq_refl)) | clear Hnz];
    fired Hm; leaves r Hm; unfold fillsConn; fields;
    destruct (IsZero dnsStart0) eqn:Ed, (IsZero tcpStart0) eqn:Et;
    try (specialize (Ho eq_refl); discriminate Ho);
    try destruct reused; try destruct isReused0;
    cbn; rewrite ?Ed, ?Et; try rewrite Hnz; cbn;
    (split; [reflexivity|]);
    (split;
     [intros; first [assumption|reflexivity|discriminate]|reflexivity]).
Qed.

Lemma fireAll_origin (hs : list Hook) (r : Result) :
  Forall (fun now => now <> 0) (readings hs) ->
  unlocked r -> originFirst r ->
  exists r',
    fireAll hs r = Ok (tt, r') /\ unlocked r' /\ originFirst r' /\
    IsZero (dnsStart r') = IsZero (dnsStart r) && negb (existsb setsOrigin hs).
Proof.
  revert r. induction hs as [|h hs IH]; intros r Hc Hm Ho.
  - exists r. cbn. rewrite andb_true_r. auto.
  - unfold readings in Hc. cbn [flat_map] in Hc.
    apply Forall_app in Hc. destruct Hc as [Hc1 Hc2].
    destruct (fire_origin h r Hc1 Hm Ho) as [r1 [E1 [Hm1 [Ho1 Hz1]]]].
    destruct (IH r1 Hc2 Hm1 Ho1) as [r2 [E2 [Hm2 [Ho2 Hz2]]]].
    exists r2. split; [|split; [assumption|split; [assumption|]]].
    + cbn [fireAll]. unfold bind. rewrite E1. exact E2.
    + rewrite Hz2, Hz1. cbn [existsb].
      destruct (IsZero (dnsStart r)), (setsOrigin h),
        (existsb setsOrigin hs); reflexivity.
Qed.

(** X13: after any hooks on a fresh [Result], with clock readings other
    than the zero instant, [dnsStart] is unset exactly when none of them
    was a DNS-start, connect-start or request-written hook.  So [Done]
    then returns with the lock still held exactly in that case, and
    releases it as soon as one of those three has fired. *)
Theorem empty_iff_no_origin_hook (hs : list Hook) (t : Time) :
  Forall (fun now => now <> 0) (readings hs) ->
  exists r r',
    fireAll hs zeroResult = Ok (tt, r) /\
    IsZero (dnsStart r) = negb (existsb setsOrigin hs) /\
    Done t r = Ok (tt, r') /\
    m r' = mkRWMutex (negb (existsb setsOrigin hs)) 0.
Proof.
  intros Hc.
  destruct (fireAll_origin hs zeroResult Hc eq_refl (fun _ => eq_refl))
    as [r [E [Hm [_ Hz]]]].
  change (IsZero (dnsStart zeroResult)) with true in Hz. cbn [andb] in Hz.
  exists r. eexists. split; [exact E|]. split; [exact Hz|].
  rewrite (Done_unlocked r t Hm), Hz.
  split; [reflexivity|].
  open_unlocked r Hm. destruct (existsb setsOrigin hs); reflexivity.
Qed.

Lemma empty_iff_no_origin_hook_witness :
  Forall (fun now => now <> 0)
         (readings [TLSHandshakeStart 20; WroteRequest 30]) /\
  exists r r',
    fireAll [TLSHandshakeStart 20; WroteRequest 30] zeroResult =
      Ok (tt, r) /\
    IsZero (dnsStart r) = false /\
    Done 70 r = Ok (tt, r') /\ m r' = mkRWMutex false 0.
Proof.
  assert (Hc : Forall (fun now => now <> 0)
                 (readings [TLSHandshakeStart 20; WroteRequest 30])).
  { repeat constructor; lia. }
  split; [exact Hc|].
  exact (empty_iff_no_origin_hook [TLSHandshakeStart 20; WroteRequest 30]
           70 Hc).
Defined.

Lemma fire_keeps_transferStart (h : Hook) (r : Result) :
  unlocked r -> transferStart r = 0 -> negb (isFirstByte h) = true ->
  exists r', fire h r = Ok (tt, r') /\ unlocked r' /\ transferStart r' = 0.
Proof.
  intros Hm Hp Hh.
  destruct h; try discriminate Hh; fired Hm; leaves r Hm;
    cbn in Hp; subst;
    repeat match goal with
           | |- context [if ?b then _ else _] => destruct b
           end; split; reflexivity.
Qed.

(** X14: [Done] tests [dnsStart] only.  After any hooks on a fresh
    [Result] none of which is the first-response-byte hook,
    [transferStart] is unset; if [dnsStart] is set, [Done t] stores in
    [contentTransfer] the distance of [t] to the zero instant, which is
    the largest duration whenever [t] is at least that far after the zero
    instant (as every present-day instant is). *)
Theorem Done_before_first_byte (hs : list Hook) (t : Time) :
  forallb (fun h => negb (isFirstByte h)) hs = true ->
  exists r,
    fireAll hs zeroResult = Ok (tt, r) /\
    unlocked r /\ IsZero (transferStart r) = true /\
    (IsZero (dnsStart r) = false ->
     exists r',
       Done t r = Ok (tt, r') /\
       contentTransfer r' = Sub t 0 /\
       (maxDuration <= t -> contentTransfer r' = maxDuration)).
Proof.
  intros Hh.
  destruct (fireAll_keeps (fun r => transferStart r = 0)
              (fun h => negb (isFirstByte h)) fire_keeps_transferStart
              hs zeroResult eq_refl eq_refl Hh) as [r [E [Hm Ht]]].
  exists r. split; [exact E|]. split; [exact Hm|].
  split; [now rewrite Ht|].
  intros Hz. rewrite (Done_unlocked r t Hm), Hz.
  eexists; split; [reflexivity|].
  open_unlocked r Hm. fields. subst. split; [reflexivity|].
  intros Hb. unfold Sub, minDuration, maxDuration in *.
  destruct (Z.ltb_spec (t - 0) (- 2 ^ 63)); [lia|].
  destruct (Z.ltb_spec (2 ^ 63 - 1) (t - 0)); lia.
Qed.

Lemma Done_before_first_byte_witness :
  forallb (fun h => negb (isFirstByte h))
          [ConnectStart 10; ConnectDone 30; WroteRequest 30] = true /\
  exists r,
    fireAll [ConnectStart 10; ConnectDone 30; WroteRequest 30] zeroResult =
      Ok (tt, r) /\
    IsZero (transferStart r) = true /\ IsZero (dnsStart r) = false /\
    exists r', Done 70 r = Ok (tt, r') /\ contentTransfer r' = Sub 70 0.
Proof.
  split; [reflexivity|].
  destruct (Done_before_first_byte
              [ConnectStart 10; ConnectDone 30; WroteRequest 30] 70 eq_refl)
    as [r [E [Hm [Ht Hd]]]].
  exists r. split; [exact E|]. split; [exact Ht|].
  assert (Hz : IsZero (dnsStart r) = false).
  { eassert (E' : fireAll [ConnectStart 10; ConnectDone 30; WroteRequest 30]
                    zeroResult = Ok (tt, _)) by (vm_compute; reflexivity).
    rewrite E' in E. injection E as <-. reflexivity. }
  split; [exact Hz|].
  destruct (Hd Hz) as [r' [H1 [H2 _]]]. exists r'. auto.
Defined.
